(** * SyferText [Token]: a shallow embedding of [syfertext/token.py]

    The Python class [Token] is embedded as state-passing code over a
    [World] that holds the live [Token] objects, the [Underscore]
    attribute objects they share with their [TokenMeta], and the state of
    the hooked PySyft/torch runtime.  PySyft and torch are external
    libraries: they are an interface ([SyftTorch]) whose operations may do
    anything to the runtime state.  Classes of the repository that
    [token.py] uses but that live in other files ([Vocab], [StringStore],
    [Vectors], [Doc], [TokenMeta], [Underscore], [TokenPointer]) are given
    the behaviour the specification describes for them. *)

From Stdlib Require Import ZArith String.
From stdpp Require Import base option strings gmap list.

Local Open Scope Z_scope.
Local Open Scope string_scope.

(** ** Values *)

(** Object identifiers are [str or int] (token.py:119, 122). *)
Inductive ident : Type :=
| IdStr (s : string)
| IdInt (z : Z).

(** References to heap objects. *)
Abbreviation loc := positive (only parsing).

(** The [value: object] argument of [set_attribute]. *)
Inductive pyobj : Type :=
| PyNone
| PyBool (b : bool)
| PyInt (z : Z)
| PyStr (s : string)
| PyRef (l : loc).

(** Exceptions.  [AssertionError] is what the [assert] of
    [get_encrypted_vector] raises (token.py:98-100);  [NotFoundError] and
    [VectorNotFoundError] are the failures of the StringStore and
    VectorTable look-ups;  [ReferenceError] stands for the use of a
    reference that names no live object;  [ForeignError] is any exception
    coming out of PySyft or torch. *)
Inductive exn : Type :=
| AssertionError (msg : string)
| NotFoundError
| VectorNotFoundError
| ReferenceError
| ForeignError (name : string).

Abbreviation result A := (exn + A)%type (only parsing).

(** ** The external runtime: PySyft and torch *)

(** [Hook] is the whole state behind [sy.TorchHook(torch)]: the workers,
    their object registries, the identifier provider and the network.
    Every operation threads it and may fail. *)
Class SyftTorch : Type := {
  BaseWorker : Type;
  Array : Type;
  Tensor : Type;
  SyString : Type;
  Hook : Type;
  (* syft.generic.object.AbstractObject.__init__(id=, owner=) *)
  AbstractObject__init__ :
    option ident → option BaseWorker → Hook → result (ident * BaseWorker) * Hook;
  (* syft.generic.string.String(...) *)
  String_ : string → Hook → result SyString * Hook;
  (* torch.Tensor(...) *)
  torch_Tensor : Array → Hook → result Tensor * Hook;
  (* tensor.fix_precision() *)
  fix_precision : Tensor → Hook → result Tensor * Hook;
  (* tensor.share applied to the workers, crypto_provider= and requires_grad= *)
  share :
    Tensor → list BaseWorker → option BaseWorker → bool → Hook → result Tensor * Hook;
}.

Section Token.

Context `{ST : SyftTorch}.

(** ** Collaborators of [Token] inside the repository *)

(** Modelled from the spec: the class [Vocab] is not under src/.  The
    StringStore "interns strings to stable integer keys and back" and the
    VectorTable "maps a token's text to a numeric vector and reports
    whether a vector exists for a given text". *)
Record Vocab : Type := {
  store : gmap Z string;
  vectors : gmap string Array;
}.

(** Modelled from the spec: [StringStore.__getitem__] on an integer key is
    not under src/.  It is [resolve(key) -> text], a local look-up that
    "fails fast" with [NotFoundError] on an unknown key. *)
Definition StringStore__getitem__ (s : gmap Z string) (key : Z) : result string :=
  match s !! key with
  | Some str => inr str
  | None => inl NotFoundError
  end.

(** Modelled from the spec: [Vectors.has_vector] is not under src/.  It
    "reports whether a vector exists for a given text". *)
Definition Vectors_has_vector (v : gmap string Array) (word : string) : bool :=
  bool_decide (is_Some (v !! word)).

(** Modelled from the spec: [Vectors.__getitem__] is not under src/.  It is
    [vector_for(text) -> numeric vector | absent], and a token without an
    embedding is reported as [VectorNotFoundError]. *)
Definition Vectors__getitem__ (v : gmap string Array) (word : string) : result Array :=
  match v !! word with
  | Some a => inr a
  | None => inl VectorNotFoundError
  end.

(** Modelled from the spec: the class [Doc] is not under src/.  A token
    only reads [doc.vocab];  no code of [token.py] writes to a document. *)
Record Doc : Type := {
  vocab : Vocab;
}.

(** Modelled from the spec: the class [TokenMeta] is not under src/.  Its
    fields are the ones [Token.__init__] reads.  [TokenMeta_underscore] is
    the field [_], a reference to an [Underscore] object. *)
Record TokenMeta : Type := {
  TokenMeta_orth : Z;
  TokenMeta_start_pos : Z;
  TokenMeta_end_pos : option Z;
  TokenMeta_is_space : bool;
  TokenMeta_space_after : bool;
  TokenMeta_underscore : loc;
}.

(** Modelled from the spec: the class [TokenPointer] is not under src/.  A
    RemotePointer carries the target worker, the remote object's
    identifier, the worker holding the pointer, the pointer's own
    identifier and its garbage-collection flag, and nothing else. *)
Record TokenPointer : Type := {
  TokenPointer_location : option BaseWorker;
  TokenPointer_id_at_location : ident;
  TokenPointer_owner : BaseWorker;
  TokenPointer_id : option ident;
  TokenPointer_garbage_collect_data : bool;
}.

(** ** The [Token] object (token.py:16-41) *)

(** [id] and [owner] are set by [AbstractObject.__init__];  [underscore]
    is the attribute [_]. *)
Record Token : Type := {
  id : ident;
  owner : BaseWorker;
  doc : Doc;
  orth : Z;
  start_pos : Z;
  stop_pos : option Z;
  is_space : bool;
  space_after : bool;
  underscore : loc;
  has_vector : bool;
}.

(** ** The world *)

(** Modelled from the spec: the class [Underscore] is not under src/.  It
    is "an open-ended mapping from attribute name to arbitrary value" that
    "must support adding keys never declared up front": the [__dict__] of
    a plain Python object. *)
Record World : Type := {
  tokens : gmap loc Token;
  underscores : gmap loc (gmap string pyobj);
  ext : Hook;
}.

(** ** Computations: state and exceptions *)

Definition M (A : Type) : Type := World → result A * World.

#[export] Instance M_ret : MRet M := λ A a w, (inr a, w).

#[export] Instance M_bind : MBind M := λ A B f m w,
  match m w with
  | (inr a, w') => f a w'
  | (inl e, w') => (inl e, w')
  end.

Definition raise {A} (e : exn) : M A := λ w, (inl e, w).

(** The outcome of a local look-up. *)
Definition lift {A} (r : result A) : M A := λ w, (r, w).

(** A call into PySyft or torch: it sees and changes [ext] only. *)
Definition foreign {A} (f : Hook → result A * Hook) : M A := λ w,
  let '(r, h) := f (ext w) in
  (r, {| tokens := tokens w; underscores := underscores w; ext := h |}).

(** Python's [assert cond, msg]. *)
Definition assert (cond : bool) (msg : string) : M unit :=
  if cond then mret () else raise (AssertionError msg).

(** Reading the object behind a reference. *)
Definition load (self : loc) : M Token := λ w,
  match tokens w !! self with
  | Some t => (inr t, w)
  | None => (inl ReferenceError, w)
  end.

(** Allocation of a new [Token] object. *)
Definition alloc (t : Token) : M loc := λ w,
  let self := fresh (dom (tokens w)) in
  (inr self,
   {| tokens := <[self := t]> (tokens w); underscores := underscores w; ext := ext w |}).

(** [setattr(obj, name, value)] on an [Underscore] object: an object that
    has no attribute yet has an empty [__dict__]. *)
Definition setattr (obj : loc) (name : string) (value : pyobj) : M unit := λ w,
  (inr (),
   {| tokens := tokens w;
      underscores := <[obj := <[name := value]> (default ∅ (underscores w !! obj))]> (underscores w);
      ext := ext w |}).

(** [getattr(obj, name)] as an observation of a world. *)
Definition getattr (obj : loc) (name : string) (w : World) : option pyobj :=
  underscores w !! obj ≫= λ d, d !! name.

(** ** The methods of [Token] *)

(** [Token(doc, token_meta, id, owner)] (token.py:17-41).  The object is
    entered into the world once [__init__] has run to its end;  when
    [__init__] raises, the half-built object is unreachable and only the
    effects of [AbstractObject.__init__] remain.  [self.text] at line 41
    reads [self.doc] and [self.orth], which are the arguments' [doc] and
    [token_meta.orth] at that point. *)
Definition Token__init__ (doc : Doc) (token_meta : TokenMeta)
    (id : option ident) (owner : option BaseWorker) : M loc :=
  '(id, owner) ← foreign (AbstractObject__init__ id owner);
  let orth := TokenMeta_orth token_meta in
  let start_pos := TokenMeta_start_pos token_meta in
  let stop_pos :=
    match TokenMeta_end_pos token_meta with
    | Some end_pos => Some (end_pos + 1)
    | None => None
    end in
  let is_space := TokenMeta_is_space token_meta in
  let space_after := TokenMeta_space_after token_meta in
  let underscore := TokenMeta_underscore token_meta in
  text ← lift (StringStore__getitem__ (store (vocab doc)) orth);
  let has_vector := Vectors_has_vector (vectors (vocab doc)) text in
  alloc {| id := id; owner := owner; doc := doc; orth := orth;
           start_pos := start_pos; stop_pos := stop_pos;
           is_space := is_space; space_after := space_after;
           underscore := underscore; has_vector := has_vector |}.

(** [set_attribute] (token.py:49-54): [setattr(self._, name, value)]. *)
Definition set_attribute (self : loc) (name : string) (value : pyobj) : M unit :=
  t ← load self;
  setattr (underscore t) name value.

(** The property [text] (token.py:56-59):
    [str(self.doc.vocab.store[self.orth])]. *)
Definition text (self : loc) : M string :=
  t ← load self;
  lift (StringStore__getitem__ (store (vocab (doc t))) (orth t)).

(** [__str__] (token.py:43-47). *)
Definition Token__str__ (self : loc) : M string :=
  text self.

(** [text_] (token.py:61-63): [String(self.doc.vocab.store[self.orth])]. *)
Definition text_ (self : loc) : M SyString :=
  t ← load self;
  s ← lift (StringStore__getitem__ (store (vocab (doc t))) (orth t));
  foreign (String_ s).

(** [__len__] (token.py:65-67): [len(self.text)]. *)
Definition Token__len__ (self : loc) : M Z :=
  s ← text self;
  mret (Z.of_nat (String.length s)).

(** The property [text_with_ws] (token.py:69-76). *)
Definition text_with_ws (self : loc) : M string :=
  t ← load self;
  if space_after t then
    s ← text self;
    mret (s +:+ " ")
  else
    text self.

(** [__repr__] (token.py:78-79). *)
Definition Token__repr__ (self : loc) : M string :=
  s ← text self;
  mret ("Token[" +:+ s +:+ "]").

(** The property [vector] (token.py:81-84):
    [self.doc.vocab.vectors[self.text]]. *)
Definition vector (self : loc) : M Array :=
  t ← load self;
  s ← text self;
  lift (Vectors__getitem__ (vectors (vocab (doc t))) s).

(** [get_encrypted_vector] (token.py:86-113). *)
Definition get_encrypted_vector (self : loc) (workers : list BaseWorker)
    (crypto_provider : option BaseWorker) (requires_grad : bool) : M Tensor :=
  assert (bool_decide (1 < length workers)%nat)
    "You need at least two workers in order to encrypt the vector with SMPC";;
  t ← load self;
  s ← text self;
  vector ← lift (Vectors__getitem__ (vectors (vocab (doc t))) s);
  vector ← foreign (torch_Tensor vector);
  vector ← foreign (fix_precision vector);
  vector ← foreign (share vector workers crypto_provider requires_grad);
  mret vector.

(** The static method [create_pointer] (token.py:115-148).  [register] is
    a parameter that the body never reads. *)
Definition create_pointer (token : loc) (location : option BaseWorker)
    (id_at_location : option ident) (register : bool)
    (owner : option BaseWorker) (ptr_id : option ident)
    (garbage_collect_data : bool) : M TokenPointer :=
  id_at_location ←
    match id_at_location with
    | None => t ← load token; mret (id t)
    | Some i => mret i
    end;
  owner ←
    match owner with
    | None => t ← load token; mret (Token.owner t)
    | Some o => mret o
    end;
  mret {| TokenPointer_location := location;
          TokenPointer_id_at_location := id_at_location;
          TokenPointer_owner := owner;
          TokenPointer_id := ptr_id;
          TokenPointer_garbage_collect_data := garbage_collect_data |}.

(** Lines 105-111 of [get_encrypted_vector]: what is done with the
    plaintext vector once it has been looked up. *)
Definition encode_and_share (vector : Array) (workers : list BaseWorker)
    (crypto_provider : option BaseWorker) (requires_grad : bool) : M Tensor :=
  vector ← foreign (torch_Tensor vector);
  vector ← foreign (fix_precision vector);
  vector ← foreign (share vector workers crypto_provider requires_grad);
  mret vector.

(** ** Sequences of calls on one token *)

(** Every operation the class offers on an existing token. *)
Inductive call : Type :=
| Call__str__
| Call_set_attribute (name : string) (value : pyobj)
| Call_text
| Call_text_
| Call__len__
| Call_text_with_ws
| Call__repr__
| Call_vector
| Call_get_encrypted_vector (workers : list BaseWorker)
    (crypto_provider : option BaseWorker) (requires_grad : bool)
| Call_create_pointer (location : option BaseWorker)
    (id_at_location : option ident) (register : bool)
    (owner : option BaseWorker) (ptr_id : option ident)
    (garbage_collect_data : bool).

Definition is_set_attribute (c : call) : bool :=
  match c with
  | Call_set_attribute _ _ => true
  | _ => false
  end.

(** Runs a computation for its effect only. *)
Definition discard {A} (m : M A) : M unit :=
  m ≫= λ _, mret ().

Definition invoke (self : loc) (c : call) : M unit :=
  match c with
  | Call__str__ => discard (Token__str__ self)
  | Call_set_attribute name value => set_attribute self name value
  | Call_text => discard (text self)
  | Call_text_ => discard (text_ self)
  | Call__len__ => discard (Token__len__ self)
  | Call_text_with_ws => discard (text_with_ws self)
  | Call__repr__ => discard (Token__repr__ self)
  | Call_vector => discard (vector self)
  | Call_get_encrypted_vector workers crypto_provider requires_grad =>
      discard (get_encrypted_vector self workers crypto_provider requires_grad)
  | Call_create_pointer location id_at_location register owner ptr_id gc =>
      discard (create_pointer self location id_at_location register owner ptr_id gc)
  end.

(** The world after a caller has made the calls [cs] one after the other,
    going on after a call that raised. *)
Fixpoint run (self : loc) (cs : list call) (w : World) : World :=
  match cs with
  | [] => w
  | c :: cs => run self cs (invoke self c w).2
  end.

(** ** Frame conditions *)

(** A computation that leaves the whole world as it found it. *)
Definition read_only {A} (m : M A) : Prop :=
  ∀ w, (m w).2 = w.

(** A computation that leaves every [Token] and every [Underscore] object
    as it found them (it may talk to PySyft). *)
Definition keeps_objects {A} (m : M A) : Prop :=
  ∀ w, tokens (m w).2 = tokens w ∧ underscores (m w).2 = underscores w.

(** ** The span of a token in the text of its document *)

(** Modelled from the spec: the document's text buffer is not under src/.
    [start_pos] and [stop_pos] are a "half-open character range
    [start_pos, stop_pos) into the document's text buffer":  the range
    names a piece of the buffer when both ends are defined and it lies
    inside the buffer. *)
Definition span (buf : string) (start : Z) (stop : option Z) : option string :=
  match stop with
  | Some stop =>
      if bool_decide (0 ≤ start ∧ start ≤ stop ∧ stop ≤ Z.of_nat (String.length buf))%Z
      then Some (String.substring (Z.to_nat start) (Z.to_nat (stop - start)) buf)
      else None
  | None => None
  end.

End Token.

(** ** A test double of the PySyft runtime *)

(** Workers are named by strings, arrays and tensors are lists of
    integers, and the runtime state is the next free identifier together
    with the log of the shares sent over the network. *)
Module Double.

Record hook : Type := {
  next_id : Z;
  network : list (string * list Z);
}.

Definition object_init (id : option ident) (owner : option string) (h : hook)
    : result (ident * string) * hook :=
  match id with
  | Some i => (inr (i, default "me" owner), h)
  | None =>
      (inr (IdInt (next_id h), default "me" owner),
       {| next_id := next_id h + 1; network := network h |})
  end.

Definition send_shares (t : list Z) (workers : list string)
    (crypto_provider : option string) (requires_grad : bool) (h : hook)
    : result (list Z) * hook :=
  (inr t, {| next_id := next_id h; network := network h ++ map (λ w, (w, t)) workers |}).

#[export] Instance runtime : SyftTorch := {|
  BaseWorker := string;
  Array := list Z;
  Tensor := list Z;
  SyString := string;
  Hook := hook;
  AbstractObject__init__ := object_init;
  String_ := λ s h, (inr s, h);
  torch_Tensor := λ a h, (inr a, h);
  fix_precision := λ t h, (inr (map (Z.mul 1000) t), h);
  share := send_shares;
|}.

Definition alice_vocab : Vocab :=
  {| store := {[ 7 := "Alice"; 8 := " " ]};
     vectors := {[ "Alice" := [1; 2; 3; 4] ]} |}.

Definition alice_doc : Doc := {| vocab := alice_vocab |}.

(** "Alice" at positions 0..4, followed by a space. *)
Definition alice_meta : TokenMeta :=
  {| TokenMeta_orth := 7; TokenMeta_start_pos := 0; TokenMeta_end_pos := Some 4;
     TokenMeta_is_space := false; TokenMeta_space_after := true;
     TokenMeta_underscore := 1%positive |}.

(** The space at position 5;  it has no vector. *)
Definition space_meta : TokenMeta :=
  {| TokenMeta_orth := 8; TokenMeta_start_pos := 5; TokenMeta_end_pos := Some 5;
     TokenMeta_is_space := true; TokenMeta_space_after := false;
     TokenMeta_underscore := 2%positive |}.

Definition empty_world : World :=
  {| tokens := ∅; underscores := ∅; ext := {| next_id := 100; network := [] |} |}.

(** The world after [Token(alice_doc, alice_meta)]. *)
Definition one_token : World :=
  (Token__init__ alice_doc alice_meta None None empty_world).2.

(** The world after [Token(alice_doc, space_meta)] as well. *)
Definition two_tokens : World :=
  (Token__init__ alice_doc space_meta None None one_token).2.

(** The two objects of [two_tokens], at the references 1 and 2. *)
Definition alice_token : Token :=
  {| id := IdInt 100; owner := "me"; doc := alice_doc; orth := 7;
     start_pos := 0; stop_pos := Some 5; is_space := false; space_after := true;
     underscore := 1%positive; has_vector := true |}.

Definition space_token : Token :=
  {| id := IdInt 101; owner := "me"; doc := alice_doc; orth := 8;
     start_pos := 5; stop_pos := Some 6; is_space := true; space_after := false;
     underscore := 2%positive; has_vector := false |}.

End Double.

(** ** More inputs for the test double *)

Module Cases.

Import Double.

(** Metadata whose key the StringStore of [alice_doc] does not know. *)
Definition unknown_meta : TokenMeta :=
  {| TokenMeta_orth := 99; TokenMeta_start_pos := 6; TokenMeta_end_pos := Some 9;
     TokenMeta_is_space := false; TokenMeta_space_after := false;
     TokenMeta_underscore := 3%positive |}.

(** The world after [Token(alice_doc, alice_meta)] has been called twice:
    two [Token] objects for the same metadata. *)
Definition alice_twice : World :=
  (Token__init__ alice_doc alice_meta None None one_token).2.

(** The document of "Alice" before any vector has been loaded into its
    VectorTable. *)
Definition bare_doc : Doc :=
  {| vocab := {| store := store alice_vocab; vectors := ∅ |} |}.

(** The world after [Token(bare_doc, alice_meta)]. *)
Definition bare_world : World :=
  (Token__init__ bare_doc alice_meta None None empty_world).2.

(** What a reference to a [Token] leads to once the document behind
    [self.doc] has become [d]: the attributes that [__init__] assigned are
    as they were, [has_vector] among them. *)
Definition document_becomes (d : Doc) (t : Token) : Token :=
  {| id := id t; owner := owner t; doc := d; orth := orth t;
     start_pos := start_pos t; stop_pos := stop_pos t;
     is_space := is_space t; space_after := space_after t;
     underscore := underscore t; has_vector := has_vector t |}.

(** [bare_world] after the vector of "Alice" has been put into the
    VectorTable of the document. *)
Definition stale_world : World :=
  {| tokens := document_becomes alice_doc <$> tokens bare_world;
     underscores := underscores bare_world;
     ext := ext bare_world |}.

End Cases.

(** ** A runtime whose fixed-precision encoding can overflow *)

(** As [Double], but [fix_precision] raises on a component of a million
    or more. *)
Module Flaky.

Definition encode (t : list Z) (h : Double.hook) : result (list Z) * Double.hook :=
  if forallb (λ x, (Z.abs x <? 1000000)%Z) t
  then (inr (map (Z.mul 1000) t), h)
  else (inl (ForeignError "OverflowError"), h).

Definition runtime : SyftTorch := {|
  BaseWorker := string;
  Array := list Z;
  Tensor := list Z;
  SyString := string;
  Hook := Double.hook;
  AbstractObject__init__ := Double.object_init;
  String_ := λ s h, (inr s, h);
  torch_Tensor := λ a h, (inr a, h);
  fix_precision := encode;
  share := Double.send_shares;
|}.

Definition big_doc : @Doc runtime :=
  {| vocab := {| store := {[ 7 := "Alice" ]};
                 vectors := {[ "Alice" := [1; 5000000] ]} |} |}.

Definition big_meta : TokenMeta :=
  {| TokenMeta_orth := 7; TokenMeta_start_pos := 0; TokenMeta_end_pos := Some 4;
     TokenMeta_is_space := false; TokenMeta_space_after := true;
     TokenMeta_underscore := 1%positive |}.

Definition empty_world : @World runtime :=
  @Build_World runtime ∅ ∅ {| Double.next_id := 100; Double.network := [] |}.

Definition big_world : @World runtime :=
  (@Token__init__ runtime big_doc big_meta None None empty_world).2.

End Flaky.

(** * Properties *)

Create HintDb frame discriminated.

Section Properties.

Context `{ST : SyftTorch}.

Implicit Types (self token : loc) (w : World) (t : Token).

(** ** Running a computation *)

Lemma bind_unfold {A B} (m : M A) (f : A → M B) w :
  (m ≫= f) w =
  match m w with
  | (inr a, w') => f a w'
  | (inl e, w') => (inl e, w')
  end.
Proof. reflexivity. Qed.

Lemma bind_returns {A B} (m : M A) (f : A → M B) w a w' :
  m w = (inr a, w') → (m ≫= f) w = f a w'.
Proof. intros Hm. rewrite bind_unfold, Hm. reflexivity. Qed.

Lemma bind_raises {A B} (m : M A) (f : A → M B) w e w' :
  m w = (inl e, w') → (m ≫= f) w = (inl e, w').
Proof. intros Hm. rewrite bind_unfold, Hm. reflexivity. Qed.

Lemma load_live self t w :
  tokens w !! self = Some t → load self w = (inr t, w).
Proof. intros Hself. unfold load. rewrite Hself. reflexivity. Qed.

Lemma load_dangling self w :
  tokens w !! self = None → load self w = (inl ReferenceError, w).
Proof. intros Hself. unfold load. rewrite Hself. reflexivity. Qed.

(** ** Frame rules *)

Lemma read_only_ret {A} (a : A) : read_only (mret a).
Proof. intros w. reflexivity. Qed.

Lemma read_only_raise {A} e : read_only (raise (A := A) e).
Proof. intros w. reflexivity. Qed.

Lemma read_only_lift {A} (r : result A) : read_only (lift r).
Proof. intros w. reflexivity. Qed.

Lemma read_only_load self : read_only (load self).
Proof. intros w. unfold load. destruct (tokens w !! self); reflexivity. Qed.

Lemma read_only_assert cond msg : read_only (assert cond msg).
Proof. destruct cond; [apply read_only_ret | apply read_only_raise]. Qed.

Lemma read_only_bind {A B} (m : M A) (f : A → M B) :
  read_only m → (∀ a, read_only (f a)) → read_only (m ≫= f).
Proof.
  intros Hm Hf w. rewrite bind_unfold.
  specialize (Hm w). destruct (m w) as [[e | a] w']; simpl in Hm; subst w'.
  - reflexivity.
  - apply Hf.
Qed.

Lemma keeps_objects_read_only {A} (m : M A) : read_only m → keeps_objects m.
Proof. intros Hm w. rewrite Hm. split; reflexivity. Qed.

Lemma keeps_objects_foreign {A} (f : Hook → result A * Hook) :
  keeps_objects (foreign f).
Proof. intros w. unfold foreign. destruct (f (ext w)) as [r h]. split; reflexivity. Qed.

Lemma keeps_objects_bind {A B} (m : M A) (f : A → M B) :
  keeps_objects m → (∀ a, keeps_objects (f a)) → keeps_objects (m ≫= f).
Proof.
  intros Hm Hf w. rewrite bind_unfold.
  destruct (Hm w) as [Ht Hu]. destruct (m w) as [[e | a] w']; simpl in Ht, Hu.
  - split; assumption.
  - destruct (Hf a w') as [Ht' Hu']. split; congruence.
Qed.

Lemma read_only_text self : read_only (text self).
Proof.
  unfold text. apply read_only_bind; [apply read_only_load |].
  intros t. apply read_only_lift.
Qed.

Hint Resolve read_only_ret read_only_raise read_only_lift read_only_load
  read_only_assert read_only_text : frame.
Hint Resolve keeps_objects_foreign : frame.

(** Walks down a chain of binds, closing each step with the frame rules. *)
Ltac frame :=
  repeat first
    [ progress intros
    | apply read_only_bind
    | apply keeps_objects_bind
    | solve [ auto with frame ]
    | solve [ apply keeps_objects_read_only; auto with frame ] ].

Lemma read_only_vector self : read_only (vector self).
Proof. unfold vector. frame. Qed.

Lemma read_only_text_with_ws self : read_only (text_with_ws self).
Proof.
  unfold text_with_ws. apply read_only_bind; [apply read_only_load |].
  intros t. destruct (space_after t); frame.
Qed.

Lemma read_only_create_pointer token location id_at_location register owner ptr_id gc :
  read_only (create_pointer token location id_at_location register owner ptr_id gc).
Proof. unfold create_pointer. destruct id_at_location, owner; frame. Qed.

Lemma keeps_objects_encode_and_share v workers crypto_provider requires_grad :
  keeps_objects (encode_and_share v workers crypto_provider requires_grad).
Proof.
  unfold encode_and_share. frame.
Qed.

(** ** What [text] and [vector] return *)

Lemma text_resolves self t s w :
  tokens w !! self = Some t →
  store (vocab (doc t)) !! orth t = Some s →
  text self w = (inr s, w).
Proof.
  intros Hself Hs. unfold text.
  rewrite (bind_returns _ _ _ _ _ (load_live _ _ _ Hself)).
  unfold lift, StringStore__getitem__. rewrite Hs. reflexivity.
Qed.

Lemma text_unknown_key self t w :
  tokens w !! self = Some t →
  store (vocab (doc t)) !! orth t = None →
  text self w = (inl NotFoundError, w).
Proof.
  intros Hself Hs. unfold text.
  rewrite (bind_returns _ _ _ _ _ (load_live _ _ _ Hself)).
  unfold lift, StringStore__getitem__. rewrite Hs. reflexivity.
Qed.

Lemma vector_lookup self t s w :
  tokens w !! self = Some t →
  store (vocab (doc t)) !! orth t = Some s →
  vector self w = (Vectors__getitem__ (vectors (vocab (doc t))) s, w).
Proof.
  intros Hself Hs. unfold vector.
  rewrite (bind_returns _ _ _ _ _ (load_live _ _ _ Hself)).
  rewrite (bind_returns _ _ _ _ _ (text_resolves _ _ _ _ Hself Hs)).
  reflexivity.
Qed.

(** ** [get_encrypted_vector] *)

(** C1.  With fewer than two participants [get_encrypted_vector] fails
    with the assertion error of token.py:98-100 (the failure the
    specification calls InsufficientPartiesError), and the world it leaves
    is the world it was given: the token is not read, no vector is looked
    up, PySyft is not called and so nothing is sent to any worker.  This
    holds whatever the PySyft operations would do. *)
Theorem get_encrypted_vector_rejects_single_party
    self (workers : list BaseWorker) crypto_provider requires_grad w :
  (length workers < 2)%nat →
  get_encrypted_vector self workers crypto_provider requires_grad w =
  (inl (AssertionError
          "You need at least two workers in order to encrypt the vector with SMPC"),
   w).
Proof.
  intros Hlen. unfold get_encrypted_vector.
  rewrite bool_decide_eq_false_2 by lia.
  reflexivity.
Qed.

(** With two participants or more the assertion passes and the body goes
    on with the look-up. *)
Lemma get_encrypted_vector_enough_parties
    self (workers : list BaseWorker) crypto_provider requires_grad w :
  (2 ≤ length workers)%nat →
  get_encrypted_vector self workers crypto_provider requires_grad w =
  (t ← load self;
   s ← text self;
   v ← lift (Vectors__getitem__ (vectors (vocab (doc t))) s);
   encode_and_share v workers crypto_provider requires_grad) w.
Proof.
  intros Hlen. unfold get_encrypted_vector.
  rewrite bool_decide_eq_true_2 by lia.
  reflexivity.
Qed.

(** C10.  With at least two participants, [get_encrypted_vector] is the
    [vector] accessor followed by the encoding and sharing of what the
    accessor returned: when the accessor raises, [get_encrypted_vector]
    raises the same exception in the same world (and PySyft has not been
    called), and when the accessor returns [v], it is [v] that is encoded
    and shared. *)
Theorem get_encrypted_vector_shares_vector
    self (workers : list BaseWorker) crypto_provider requires_grad w :
  (2 ≤ length workers)%nat →
  get_encrypted_vector self workers crypto_provider requires_grad w =
    (vector self ≫= λ v, encode_and_share v workers crypto_provider requires_grad) w
  ∧ (∀ e w', vector self w = (inl e, w') →
       get_encrypted_vector self workers crypto_provider requires_grad w = (inl e, w'))
  ∧ (∀ v w', vector self w = (inr v, w') →
       get_encrypted_vector self workers crypto_provider requires_grad w =
       encode_and_share v workers crypto_provider requires_grad w').
Proof.
  intros Hlen.
  assert (get_encrypted_vector self workers crypto_provider requires_grad w =
    (vector self ≫= λ v, encode_and_share v workers crypto_provider requires_grad) w)
    as Heq.
  { rewrite get_encrypted_vector_enough_parties by assumption.
    unfold vector. rewrite !bind_unfold.
    destruct (load self w) as [[e | t] w1]; [reflexivity |].
    rewrite !bind_unfold.
    destruct (text self w1) as [[e | s] w2]; [reflexivity |].
    rewrite !bind_unfold.
    destruct (lift (Vectors__getitem__ (vectors (vocab (doc t))) s) w2)
      as [[e | v] w3]; reflexivity. }
  split; [exact Heq |]. split.
  - intros e w' Hv. rewrite Heq, bind_unfold, Hv. reflexivity.
  - intros v w' Hv. rewrite Heq, bind_unfold, Hv. reflexivity.
Qed.

(** ** [create_pointer] *)

(** C4.  [create_pointer] leaves the world as it found it, for every
    combination of its arguments, [register = true] included: no [Token],
    no [Underscore] object and nothing of the PySyft runtime (object
    registries, workers, network) is changed;  the pointer is only
    returned. *)
Theorem create_pointer_registers_nothing
    token location id_at_location (register : bool) owner ptr_id gc w :
  (create_pointer token location id_at_location register owner ptr_id gc w).2 = w.
Proof.
  revert w. fold (read_only
    (create_pointer token location id_at_location register owner ptr_id gc)).
  apply read_only_create_pointer.
Qed.

(** C5.  On a live token [create_pointer] returns a pointer whose
    [id_at_location] is the token's own [id] when the argument is absent
    and the argument otherwise, and whose [owner] is the token's [owner]
    when the argument is absent and the argument otherwise;  [location],
    [ptr_id] and [garbage_collect_data] are passed through. *)
Theorem create_pointer_defaults
    token t location id_at_location (register : bool) owner_ ptr_id gc w :
  tokens w !! token = Some t →
  ∃ p,
    create_pointer token location id_at_location register owner_ ptr_id gc w = (inr p, w)
    ∧ TokenPointer_id_at_location p =
        match id_at_location with None => id t | Some i => i end
    ∧ TokenPointer_owner p =
        match owner_ with None => owner t | Some o => o end
    ∧ TokenPointer_location p = location
    ∧ TokenPointer_id p = ptr_id
    ∧ TokenPointer_garbage_collect_data p = gc.
Proof.
  intros Htoken. unfold create_pointer.
  destruct id_at_location as [i |], owner_ as [o |];
    rewrite ?bind_unfold; simpl;
    rewrite ?bind_unfold, ?(load_live _ _ _ Htoken); simpl;
    rewrite ?bind_unfold, ?(load_live _ _ _ Htoken); simpl;
    eexists; (split; [reflexivity |]); simpl; repeat split.
Qed.

(** ** The constructor *)

(** What a call of [Token(...)] that returns has done. *)
Lemma Token__init___returns d token_meta id_ owner_ w self w' :
  Token__init__ d token_meta id_ owner_ w = (inr self, w') →
  ∃ i o h s t,
    AbstractObject__init__ id_ owner_ (ext w) = (inr (i, o), h)
    ∧ store (vocab d) !! TokenMeta_orth token_meta = Some s
    ∧ tokens w !! self = None
    ∧ tokens w' = <[self := t]> (tokens w)
    ∧ underscores w' = underscores w
    ∧ ext w' = h
    ∧ id t = i ∧ owner t = o ∧ doc t = d
    ∧ orth t = TokenMeta_orth token_meta
    ∧ start_pos t = TokenMeta_start_pos token_meta
    ∧ stop_pos t = (λ e, e + 1) <$> TokenMeta_end_pos token_meta
    ∧ is_space t = TokenMeta_is_space token_meta
    ∧ space_after t = TokenMeta_space_after token_meta
    ∧ underscore t = TokenMeta_underscore token_meta
    ∧ has_vector t = Vectors_has_vector (vectors (vocab d)) s.
Proof.
  unfold Token__init__. rewrite bind_unfold. unfold foreign.
  destruct (AbstractObject__init__ id_ owner_ (ext w)) as [[e | [i o]] h] eqn:Hinit;
    [discriminate |].
  rewrite bind_unfold. unfold lift, StringStore__getitem__.
  destruct (store (vocab d) !! TokenMeta_orth token_meta) as [s |] eqn:Hs;
    [| discriminate].
  unfold alloc. cbn [tokens underscores ext]. intros [= <- <-].
  eexists i, o, h, s, _. cbn [tokens underscores ext].
  split; [reflexivity |]. split; [reflexivity |].
  split; [apply not_elem_of_dom, is_fresh |].
  split; [reflexivity |].
  cbn. destruct (TokenMeta_end_pos token_meta); repeat split.
Qed.

(** [Token(...)] returns whenever [AbstractObject.__init__] does and the
    StringStore knows the key of the token's text. *)
Lemma Token__init___runs d token_meta id_ owner_ w i o h s :
  AbstractObject__init__ id_ owner_ (ext w) = (inr (i, o), h) →
  store (vocab d) !! TokenMeta_orth token_meta = Some s →
  ∃ self w', Token__init__ d token_meta id_ owner_ w = (inr self, w').
Proof.
  intros Hinit Hs. unfold Token__init__. rewrite bind_unfold. unfold foreign.
  rewrite Hinit. rewrite bind_unfold. unfold lift, StringStore__getitem__.
  rewrite Hs. unfold alloc. eauto.
Qed.

(** Building a token leaves the tokens that exist, and every [Underscore]
    object, as they were. *)
Lemma Token__init___keeps_existing d token_meta id_ owner_ w self w' token t :
  Token__init__ d token_meta id_ owner_ w = (inr self, w') →
  tokens w !! token = Some t →
  tokens w' !! token = Some t ∧ underscores w' = underscores w.
Proof.
  intros Hnew Htoken.
  destruct (Token__init___returns _ _ _ _ _ _ _ Hnew)
    as (i & o & h & s & t' & _ & _ & Hfresh & Htokens & Hobjects & _).
  split; [| exact Hobjects].
  rewrite Htokens, lookup_insert_ne; [exact Htoken |].
  intros ->. congruence.
Qed.

(** C3.  A token built from [token_meta] has [start_pos] equal to the
    metadata's [start_pos], and [stop_pos] equal to the metadata's
    [end_pos] plus one when [end_pos] is defined and undefined when it is
    not. *)
Theorem Token__init___positions d token_meta id_ owner_ w self w' :
  Token__init__ d token_meta id_ owner_ w = (inr self, w') →
  ∃ t,
    tokens w' !! self = Some t
    ∧ start_pos t = TokenMeta_start_pos token_meta
    ∧ (∀ end_pos, TokenMeta_end_pos token_meta = Some end_pos →
         stop_pos t = Some (end_pos + 1))
    ∧ (TokenMeta_end_pos token_meta = None → stop_pos t = None).
Proof.
  intros Hnew.
  destruct (Token__init___returns _ _ _ _ _ _ _ Hnew)
    as (i & o & h & s & t & _ & _ & _ & Htokens & _ & _ & _ & _ & _ & _ &
        Hstart & Hstop & _).
  exists t. split; [rewrite Htokens; apply lookup_insert_eq |].
  split; [exact Hstart |]. rewrite Hstop.
  split; [intros end_pos -> | intros ->]; reflexivity.
Qed.

(** ** The [vector] accessor *)

(** C2, as amended.  [Token.vector] does a live look-up and never reads
    [has_vector], which [__init__] stored once (token.py:41 and :84), so
    the flag decides the accessor only while the token and the VectorTable
    of its document are what they were at construction.  Let [self] be a
    token built by [Token(...)].  In every world in which [self] is still
    that token with that document: if its cached [has_vector] is false the
    [vector] accessor raises what the VectorTable's look-up raises for a
    missing text, [VectorNotFoundError], and if it is true the accessor
    returns the vector the VectorTable holds for the token's text.
    Nothing in the world changes either way. *)
Theorem vector_follows_has_vector d token_meta id_ owner_ w0 self w1 :
  Token__init__ d token_meta id_ owner_ w0 = (inr self, w1) →
  ∃ t s,
    tokens w1 !! self = Some t
    ∧ store (vocab (doc t)) !! orth t = Some s
    ∧ ∀ w, tokens w !! self = Some t →
        (has_vector t = false → vector self w = (inl VectorNotFoundError, w))
        ∧ (has_vector t = true →
             ∃ a, vectors (vocab (doc t)) !! s = Some a ∧ vector self w = (inr a, w)).
Proof.
  intros Hnew.
  destruct (Token__init___returns _ _ _ _ _ _ _ Hnew)
    as (i & o & h & s & t & _ & Hs & _ & Htokens & _ & _ & _ & _ & Hdoc & Horth &
        _ & _ & _ & _ & _ & Hhas).
  exists t, s. rewrite Hdoc, Horth.
  split; [rewrite Htokens; apply lookup_insert_eq |].
  split; [exact Hs |].
  intros w Hself.
  assert (vector self w = (Vectors__getitem__ (vectors (vocab d)) s, w)) as Hvec.
  { rewrite <- Hdoc. apply vector_lookup; [exact Hself |]. rewrite Hdoc, Horth. exact Hs. }
  rewrite Hvec, Hhas. unfold Vectors_has_vector, Vectors__getitem__.
  destruct (vectors (vocab d) !! s) as [a |] eqn:Ha.
  - split.
    + intros Hfalse. apply bool_decide_eq_false in Hfalse.
      exfalso. apply Hfalse. eauto.
    + intros _. exists a. split; reflexivity.
  - split.
    + intros _. reflexivity.
    + intros Htrue. apply bool_decide_eq_true in Htrue.
      destruct Htrue as [a Hsome]. discriminate.
Qed.

(** ** Text and trailing whitespace *)

Lemma length_append (s1 s2 : string) :
  String.length (s1 +:+ s2) = (String.length s1 + String.length s2)%nat.
Proof. induction s1 as [| c s1 IH]; simpl; [| rewrite IH]; reflexivity. Qed.

Lemma append_space_differs (s : string) : s +:+ " " ≠ s.
Proof.
  intros Heq. apply (f_equal String.length) in Heq.
  rewrite length_append in Heq. simpl in Heq. lia.
Qed.

(** C6.  For a token whose text resolves to [s], [text_with_ws] is
    [s + " "] when [space_after] is true and [s] itself when it is false,
    so it is [s + " "] exactly when [space_after] is true and it equals
    [text] exactly when [space_after] is false;  in particular a token
    with [is_space] true and [space_after] false has [text_with_ws] equal
    to [text].  When [text] raises, [text_with_ws] raises the same. *)
Theorem text_with_ws_space_after self t w :
  tokens w !! self = Some t →
  (∀ s, text self w = (inr s, w) →
     (space_after t = true → text_with_ws self w = (inr (s +:+ " "), w))
     ∧ (space_after t = false → text_with_ws self w = (inr s, w))
     ∧ (text_with_ws self w = (inr (s +:+ " "), w) ↔ space_after t = true)
     ∧ (text_with_ws self w = text self w ↔ space_after t = false))
  ∧ (∀ e, text self w = (inl e, w) → text_with_ws self w = (inl e, w))
  ∧ (is_space t = true → space_after t = false →
     text_with_ws self w = text self w).
Proof.
  intros Hself.
  assert (text_with_ws self w =
          if space_after t then (text self ≫= λ s, mret (s +:+ " ")) w
          else text self w) as Hws.
  { unfold text_with_ws. rewrite (bind_returns _ _ _ _ _ (load_live _ _ _ Hself)).
    destruct (space_after t); reflexivity. }
  split; [| split].
  - intros s Hs. rewrite Hws, bind_unfold, Hs.
    destruct (space_after t); cbn.
    + split; [reflexivity |]. split; [discriminate |].
      split; [split; reflexivity |].
      split; [| discriminate].
      intros [= Heq]. destruct (append_space_differs _ Heq).
    + split; [discriminate |]. split; [reflexivity |].
      split; [| split; reflexivity].
      split; [| discriminate].
      intros [= Heq]. symmetry in Heq. destruct (append_space_differs _ Heq).
  - intros e He. rewrite Hws, bind_unfold, He. destruct (space_after t); reflexivity.
  - intros _ Hafter. rewrite Hws, Hafter. reflexivity.
Qed.

(** ** Spans *)

Lemma length_substring (n m : nat) (s : string) :
  (n + m ≤ String.length s)%nat → String.length (String.substring n m s) = m.
Proof.
  revert n m. induction s as [| c s IH]; intros n m Hle; simpl in Hle.
  - assert (n = 0%nat ∧ m = 0%nat) as [-> ->] by lia. reflexivity.
  - destruct n as [| n]; simpl.
    + destruct m as [| m]; simpl; [reflexivity |].
      f_equal. apply IH. lia.
    + apply IH. lia.
Qed.

Lemma span_inside buf start stop s :
  span buf start stop = Some s →
  ∃ stop', stop = Some stop' ∧ stop' - start = Z.of_nat (String.length s).
Proof.
  unfold span. destruct stop as [stop' |]; [| discriminate].
  case_bool_decide as Hrange; [| discriminate].
  intros [= <-]. exists stop'. split; [reflexivity |].
  rewrite length_substring by lia. lia.
Qed.

(** C9.  When the piece of the document's text between [start_pos] and
    [stop_pos] is the token's own text, [stop_pos - start_pos] is the
    number of characters of the text, which is what [__len__] returns. *)
Theorem span_is_length self t (buf s : string) w :
  tokens w !! self = Some t →
  text self w = (inr s, w) →
  span buf (start_pos t) (stop_pos t) = Some s →
  ∃ stop,
    stop_pos t = Some stop
    ∧ stop - start_pos t = Z.of_nat (String.length s)
    ∧ Token__len__ self w = (inr (stop - start_pos t), w).
Proof.
  intros Hself Htext Hspan.
  destruct (span_inside _ _ _ _ Hspan) as (stop & Hstop & Hlen).
  exists stop. split; [exact Hstop |]. split; [exact Hlen |].
  unfold Token__len__. rewrite (bind_returns _ _ _ _ _ Htext), Hlen. reflexivity.
Qed.

(** ** Custom attributes *)

Lemma set_attribute_live self t name value w :
  tokens w !! self = Some t →
  set_attribute self name value w =
  (inr (),
   {| tokens := tokens w;
      underscores :=
        <[underscore t := <[name := value]> (default ∅ (underscores w !! underscore t))]>
          (underscores w);
      ext := ext w |}).
Proof.
  intros Hself. unfold set_attribute.
  rewrite (bind_returns _ _ _ _ _ (load_live _ _ _ Hself)). reflexivity.
Qed.

Lemma set_attribute_dangling self name value w :
  tokens w !! self = None →
  set_attribute self name value w = (inl ReferenceError, w).
Proof.
  intros Hself. unfold set_attribute.
  rewrite (bind_raises _ _ _ _ _ (load_dangling _ _ Hself)). reflexivity.
Qed.

Lemma getattr_set_attribute self t name value w :
  tokens w !! self = Some t →
  getattr (underscore t) name (set_attribute self name value w).2 = Some value.
Proof.
  intros Hself. rewrite (set_attribute_live _ _ _ _ _ Hself).
  unfold getattr. cbn [snd underscores].
  rewrite lookup_insert_eq. cbn. apply lookup_insert_eq.
Qed.

(** C7.  On a live token, [set_attribute(name, v1)] followed by
    [set_attribute(name, v2)] both return, and afterwards the attribute
    [name] of the token's [Underscore] object is [v2], whatever the
    attributes of the object were before. *)
Theorem set_attribute_last_write_wins self t name v1 v2 w :
  tokens w !! self = Some t →
  ∃ w1 w2,
    set_attribute self name v1 w = (inr (), w1)
    ∧ set_attribute self name v2 w1 = (inr (), w2)
    ∧ (set_attribute self name v1 ;; set_attribute self name v2) w = (inr (), w2)
    ∧ getattr (underscore t) name w2 = Some v2.
Proof.
  intros Hself.
  pose proof (set_attribute_live self t name v1 w Hself) as H1.
  set (w1 := (set_attribute self name v1 w).2).
  assert (tokens w1 !! self = Some t) as Hself1.
  { subst w1. rewrite H1. exact Hself. }
  pose proof (set_attribute_live self t name v2 w1 Hself1) as H2.
  exists w1, (set_attribute self name v2 w1).2.
  assert (set_attribute self name v1 w = (inr (), w1)) as H1'.
  { subst w1. rewrite H1. reflexivity. }
  split; [exact H1' |].
  split; [rewrite H2; reflexivity |].
  split; [rewrite (bind_returns _ _ _ _ _ H1'), H2; reflexivity |].
  apply getattr_set_attribute. exact Hself1.
Qed.

(** ** What a call may change *)

Lemma set_attribute_keeps_tokens self name value w :
  tokens (set_attribute self name value w).2 = tokens w.
Proof.
  destruct (tokens w !! self) as [t |] eqn:Hself.
  - rewrite (set_attribute_live _ _ _ _ _ Hself). reflexivity.
  - rewrite (set_attribute_dangling _ _ _ _ Hself). reflexivity.
Qed.

Lemma set_attribute_keeps_ext self name value w :
  ext (set_attribute self name value w).2 = ext w.
Proof.
  destruct (tokens w !! self) as [t |] eqn:Hself.
  - rewrite (set_attribute_live _ _ _ _ _ Hself). reflexivity.
  - rewrite (set_attribute_dangling _ _ _ _ Hself). reflexivity.
Qed.

Lemma set_attribute_other_objects self name value w (o : loc) :
  (∀ t, tokens w !! self = Some t → o ≠ underscore t) →
  underscores (set_attribute self name value w).2 !! o = underscores w !! o.
Proof.
  intros Hother. destruct (tokens w !! self) as [t |] eqn:Hself.
  - rewrite (set_attribute_live _ _ _ _ _ Hself). cbn [snd underscores].
    apply lookup_insert_ne. intros Heq. apply (Hother t); [reflexivity | congruence].
  - rewrite (set_attribute_dangling _ _ _ _ Hself). reflexivity.
Qed.

Lemma keeps_objects_discard {A} (m : M A) : keeps_objects m → keeps_objects (discard m).
Proof. intros Hm. unfold discard. frame. Qed.

(** Every call but [set_attribute] leaves all objects alone. *)
Lemma keeps_objects_invoke self c :
  is_set_attribute c = false → keeps_objects (invoke self c).
Proof.
  destruct c; [| discriminate | ..]; intros _; cbn [invoke];
    apply keeps_objects_discard.
  - apply keeps_objects_read_only, read_only_text.
  - apply keeps_objects_read_only, read_only_text.
  - unfold text_. frame.
  - unfold Token__len__. frame.
  - apply keeps_objects_read_only, read_only_text_with_ws.
  - unfold Token__repr__. frame.
  - apply keeps_objects_read_only, read_only_vector.
  - unfold get_encrypted_vector. frame.
  - apply keeps_objects_read_only, read_only_create_pointer.
Qed.

Lemma invoke_keeps_tokens self c w :
  tokens (invoke self c w).2 = tokens w.
Proof.
  destruct (is_set_attribute c) eqn:Hc.
  - destruct c; try discriminate. apply set_attribute_keeps_tokens.
  - apply keeps_objects_invoke. exact Hc.
Qed.

Lemma invoke_other_objects self c w (o : loc) :
  (∀ t, tokens w !! self = Some t → o ≠ underscore t) →
  underscores (invoke self c w).2 !! o = underscores w !! o.
Proof.
  intros Hother. destruct (is_set_attribute c) eqn:Hc.
  - destruct c; try discriminate. apply set_attribute_other_objects. exact Hother.
  - destruct (keeps_objects_invoke self c Hc w) as [_ ->]. reflexivity.
Qed.

Lemma run_keeps_tokens self cs w :
  tokens (run self cs w) = tokens w.
Proof.
  revert w. induction cs as [| c cs IH]; intros w; cbn [run]; [reflexivity |].
  rewrite IH. apply invoke_keeps_tokens.
Qed.

Lemma run_other_objects self cs w (o : loc) :
  (∀ t, tokens w !! self = Some t → o ≠ underscore t) →
  underscores (run self cs w) !! o = underscores w !! o.
Proof.
  revert w. induction cs as [| c cs IH]; intros w Hother; cbn [run]; [reflexivity |].
  rewrite IH.
  - apply invoke_other_objects. exact Hother.
  - rewrite invoke_keeps_tokens. exact Hother.
Qed.

Lemma run_set_attribute_keeps_ext self cs w :
  forallb is_set_attribute cs = true → ext (run self cs w) = ext w.
Proof.
  revert w. induction cs as [| c cs IH]; intros w Hall; cbn [run]; [reflexivity |].
  cbn in Hall. apply andb_prop in Hall as [Hc Hcs].
  rewrite IH by exact Hcs.
  destruct c; try discriminate. apply set_attribute_keeps_ext.
Qed.

Lemma run_without_set_attribute self cs w :
  existsb is_set_attribute cs = false → underscores (run self cs w) = underscores w.
Proof.
  revert w. induction cs as [| c cs IH]; intros w Hnone; cbn [run]; [reflexivity |].
  cbn in Hnone. apply orb_false_elim in Hnone as [Hc Hcs].
  rewrite IH by exact Hcs.
  apply (keeps_objects_invoke self c Hc w).
Qed.

(** C8.  After any sequence of calls on a token, [set_attribute] calls
    included, every [Token] object is what it was: [doc], [orth],
    [start_pos], [stop_pos], [is_space], [space_after], [has_vector] (and
    [id], [owner] and the reference [_]) are unchanged.  The only object
    that may differ is the [Underscore] object of the token the calls were
    made on;  a sequence of [set_attribute] calls changes nothing of the
    PySyft runtime;  and a sequence without [set_attribute] changes no
    [Underscore] object at all. *)
Theorem only_set_attribute_mutates self (cs : list call) w :
  tokens (run self cs w) = tokens w
  ∧ (∀ t, tokens w !! self = Some t →
       ∃ t', tokens (run self cs w) !! self = Some t'
             ∧ doc t' = doc t ∧ orth t' = orth t
             ∧ start_pos t' = start_pos t ∧ stop_pos t' = stop_pos t
             ∧ is_space t' = is_space t ∧ space_after t' = space_after t
             ∧ has_vector t' = has_vector t)
  ∧ (∀ o : loc, (∀ t, tokens w !! self = Some t → o ≠ underscore t) →
       underscores (run self cs w) !! o = underscores w !! o)
  ∧ (forallb is_set_attribute cs = true → ext (run self cs w) = ext w)
  ∧ (existsb is_set_attribute cs = false →
       underscores (run self cs w) = underscores w).
Proof.
  split; [apply run_keeps_tokens |].
  split.
  { intros t Hself. exists t. rewrite run_keeps_tokens. repeat split. exact Hself. }
  split; [intros o; apply run_other_objects |].
  split; [apply run_set_attribute_keeps_ext | apply run_without_set_attribute].
Qed.

(** * Further properties of the class *)

(** ** When the constructor raises, and what it builds *)

(** [Token(...)] raises what [AbstractObject.__init__] raises, or else what
    the look-up of [token_meta.orth] in the StringStore raises (line 41
    reads [self.text]).  Either way no [Token] appears and no [Underscore]
    object changes;  the runtime is left as [AbstractObject.__init__] left
    it. *)
Theorem Token__init___raises d token_meta id_ owner_ w e h :
  AbstractObject__init__ id_ owner_ (ext w) = (inl e, h)
  ∨ (∃ i o, AbstractObject__init__ id_ owner_ (ext w) = (inr (i, o), h)
            ∧ StringStore__getitem__ (store (vocab d)) (TokenMeta_orth token_meta)
              = inl e) →
  Token__init__ d token_meta id_ owner_ w =
  (inl e, {| tokens := tokens w; underscores := underscores w; ext := h |}).
Proof.
  intros [Hinit | (i & o & Hinit & Hstore)];
    unfold Token__init__; rewrite bind_unfold; unfold foreign; rewrite Hinit.
  - reflexivity.
  - rewrite bind_unfold. unfold lift. rewrite Hstore. reflexivity.
Qed.

(** A token that [Token(...)] has built carries the [id] and [owner] that
    [AbstractObject.__init__] returned, the document it was given, and the
    metadata's [orth], [is_space] and [space_after];  its [_] is the very
    [Underscore] object of the metadata;  and its [has_vector] is true
    exactly when the VectorTable has an entry for the text that the
    StringStore resolves for its [orth]. *)
Theorem Token__init___fields d token_meta id_ owner_ w self w' :
  Token__init__ d token_meta id_ owner_ w = (inr self, w') →
  ∃ t s,
    tokens w' !! self = Some t
    ∧ AbstractObject__init__ id_ owner_ (ext w) = (inr (id t, owner t), ext w')
    ∧ doc t = d
    ∧ orth t = TokenMeta_orth token_meta
    ∧ is_space t = TokenMeta_is_space token_meta
    ∧ space_after t = TokenMeta_space_after token_meta
    ∧ underscore t = TokenMeta_underscore token_meta
    ∧ text self w' = (inr s, w')
    ∧ (has_vector t = true ↔ is_Some (vectors (vocab d) !! s)).
Proof.
  intros Hnew.
  destruct (Token__init___returns _ _ _ _ _ _ _ Hnew)
    as (i & o & h & s & t & Hinit & Hs & _ & Htokens & _ & Hext & Hid & Howner &
        Hdoc & Horth & _ & _ & Hspace & Hafter & Hobj & Hhas).
  assert (tokens w' !! self = Some t) as Hself
    by (rewrite Htokens; apply lookup_insert_eq).
  exists t, s. split; [exact Hself |].
  split; [rewrite Hid, Howner, Hext; exact Hinit |].
  split; [exact Hdoc |]. split; [exact Horth |]. split; [exact Hspace |].
  split; [exact Hafter |]. split; [exact Hobj |].
  split; [apply (text_resolves _ _ _ _ Hself); rewrite Hdoc, Horth; exact Hs |].
  rewrite Hhas. unfold Vectors_has_vector. apply bool_decide_eq_true.
Qed.

(** Building a token gives a reference that named no token before, keeps
    every other reference pointing to the token it pointed to, and changes
    no [Underscore] object. *)
Theorem Token__init___fresh d token_meta id_ owner_ w self w' :
  Token__init__ d token_meta id_ owner_ w = (inr self, w') →
  tokens w !! self = None
  ∧ (∀ token, token ≠ self → tokens w' !! token = tokens w !! token)
  ∧ underscores w' = underscores w.
Proof.
  intros Hnew.
  destruct (Token__init___returns _ _ _ _ _ _ _ Hnew)
    as (i & o & h & s & t & _ & _ & Hfresh & Htokens & Hobjects & _).
  split; [exact Hfresh |]. split; [| exact Hobjects].
  intros token Hne. rewrite Htokens. apply lookup_insert_ne. congruence.
Qed.

(** ** Attributes *)

(** Two tokens built from the same metadata share its [Underscore] object:
    an attribute set through the first is read through the second, and
    through the metadata. *)
Theorem set_attribute_shared_with_meta
    d1 d2 token_meta id1 owner1 id2 owner2 w a w1 b w2 name value :
  Token__init__ d1 token_meta id1 owner1 w = (inr a, w1) →
  Token__init__ d2 token_meta id2 owner2 w1 = (inr b, w2) →
  ∃ w3 tb,
    set_attribute a name value w2 = (inr (), w3)
    ∧ a ≠ b
    ∧ tokens w3 !! b = Some tb
    ∧ getattr (underscore tb) name w3 = Some value
    ∧ getattr (TokenMeta_underscore token_meta) name w3 = Some value.
Proof.
  intros Ha Hb.
  destruct (Token__init___returns _ _ _ _ _ _ _ Ha)
    as (ia & oa & ha & sa & ta & _ & _ & _ & Htokens1 & _ & _ & _ & _ & _ & _ &
        _ & _ & _ & _ & Hobja & _).
  destruct (Token__init___returns _ _ _ _ _ _ _ Hb)
    as (ib & ob & hb & sb & tb & _ & _ & Hfresh & Htokens2 & _ & _ & _ & _ & _ & _ &
        _ & _ & _ & _ & Hobjb & _).
  assert (tokens w1 !! a = Some ta) as Ha1
    by (rewrite Htokens1; apply lookup_insert_eq).
  assert (a ≠ b) as Hne by (intros ->; congruence).
  assert (tokens w2 !! a = Some ta) as Ha2.
  { rewrite Htokens2, lookup_insert_ne by congruence. exact Ha1. }
  assert (tokens w2 !! b = Some tb) as Hb2
    by (rewrite Htokens2; apply lookup_insert_eq).
  pose proof (set_attribute_live a ta name value w2 Ha2) as Hset.
  pose proof (getattr_set_attribute a ta name value w2 Ha2) as Hget.
  exists (set_attribute a name value w2).2, tb.
  split; [rewrite Hset; reflexivity |]. split; [exact Hne |].
  split; [rewrite set_attribute_keeps_tokens; exact Hb2 |].
  rewrite Hobjb, <- Hobja. split; exact Hget.
Qed.

(** [set_attribute(name, value)] leaves every attribute with another name
    as it was. *)
Theorem set_attribute_other_names self t name name' value w :
  tokens w !! self = Some t →
  name ≠ name' →
  getattr (underscore t) name' (set_attribute self name value w).2 =
  getattr (underscore t) name' w.
Proof.
  intros Hself Hne. rewrite (set_attribute_live _ _ _ _ _ Hself).
  unfold getattr. cbn [snd underscores]. rewrite lookup_insert_eq. cbn.
  rewrite lookup_insert_ne by exact Hne.
  destruct (underscores w !! underscore t) as [attrs |]; reflexivity.
Qed.

(** What two writes in a row amount to. *)
Lemma set_attribute_twice self t n1 v1 n2 v2 w :
  tokens w !! self = Some t →
  (set_attribute self n1 v1 ;; set_attribute self n2 v2) w =
  (inr (),
   {| tokens := tokens w;
      underscores :=
        <[underscore t :=
            <[n2 := v2]> (<[n1 := v1]> (default ∅ (underscores w !! underscore t)))]>
          (underscores w);
      ext := ext w |}).
Proof.
  intros Hself.
  rewrite (bind_returns _ _ _ _ _ (set_attribute_live _ _ _ _ _ Hself)).
  rewrite (set_attribute_live self t) by exact Hself.
  cbn [tokens underscores ext]. rewrite lookup_insert_eq, insert_insert_eq.
  reflexivity.
Qed.

(** A second write to the same attribute leaves the world that the second
    write alone would have left: nothing remains of the first value. *)
Theorem set_attribute_overwrites self t name v1 v2 w :
  tokens w !! self = Some t →
  (set_attribute self name v1 ;; set_attribute self name v2) w =
  set_attribute self name v2 w.
Proof.
  intros Hself.
  rewrite (set_attribute_twice _ _ _ _ _ _ _ Hself).
  rewrite (set_attribute_live _ _ _ _ _ Hself).
  rewrite insert_insert_eq. reflexivity.
Qed.

(** Writes to two different attributes can be made in either order. *)
Theorem set_attribute_commutes self t n1 v1 n2 v2 w :
  tokens w !! self = Some t →
  n1 ≠ n2 →
  (set_attribute self n1 v1 ;; set_attribute self n2 v2) w =
  (set_attribute self n2 v2 ;; set_attribute self n1 v1) w.
Proof.
  intros Hself Hne.
  rewrite !(set_attribute_twice _ _ _ _ _ _ _ Hself).
  rewrite (insert_insert_ne _ n1 n2) by exact Hne. reflexivity.
Qed.

(** ** The accessors built on [text] *)

Lemma text_dangling self w :
  tokens w !! self = None → text self w = (inl ReferenceError, w).
Proof.
  intros Hself. unfold text.
  rewrite (bind_raises _ _ _ _ _ (load_dangling _ _ Hself)). reflexivity.
Qed.

(** What [text] returns is decided by the token behind [self] alone. *)
Lemma text_by_cases self w :
  text self w =
  (match tokens w !! self with
   | Some t => StringStore__getitem__ (store (vocab (doc t))) (orth t)
   | None => inl ReferenceError
   end, w).
Proof.
  destruct (tokens w !! self) as [t |] eqn:Hself.
  - unfold StringStore__getitem__.
    destruct (store (vocab (doc t)) !! orth t) as [s |] eqn:Hs.
    + apply (text_resolves _ _ _ _ Hself Hs).
    + apply (text_unknown_key _ _ _ Hself Hs).
  - apply text_dangling. exact Hself.
Qed.

(** [__str__] is [text];  when [text] returns [s], [__len__] returns the
    number of characters of [s], [__repr__] returns [s] between "Token["
    and "]", and [text_] returns what PySyft's [String] makes of [s];  and
    when [text] raises, [__len__], [__repr__], [text_] and [vector] raise
    the same exception, [text_] without calling [String]. *)
Theorem accessors_follow_text self w :
  Token__str__ self w = text self w
  ∧ (∀ s, text self w = (inr s, w) →
       Token__len__ self w = (inr (Z.of_nat (String.length s)), w)
       ∧ Token__repr__ self w = (inr ("Token[" +:+ s +:+ "]"), w)
       ∧ text_ self w = foreign (String_ s) w)
  ∧ (∀ e, text self w = (inl e, w) →
       Token__len__ self w = (inl e, w)
       ∧ Token__repr__ self w = (inl e, w)
       ∧ text_ self w = (inl e, w)
       ∧ vector self w = (inl e, w)).
Proof.
  split; [reflexivity |]. split.
  - intros s Hs. unfold Token__len__, Token__repr__.
    rewrite !(bind_returns _ _ _ _ _ Hs).
    split; [reflexivity |]. split; [reflexivity |].
    rewrite text_by_cases in Hs. unfold text_. rewrite bind_unfold. unfold load.
    destruct (tokens w !! self) as [t |]; [| discriminate].
    rewrite bind_unfold. unfold lift.
    destruct (StringStore__getitem__ (store (vocab (doc t))) (orth t)) as [e | s'];
      [discriminate |].
    congruence.
  - intros e He. unfold Token__len__, Token__repr__.
    rewrite !(bind_raises _ _ _ _ _ He).
    split; [reflexivity |]. split; [reflexivity |].
    rewrite text_by_cases in He. unfold text_, vector.
    rewrite !bind_unfold. unfold load.
    destruct (tokens w !! self) as [t |] eqn:Hself.
    + rewrite !bind_unfold, text_by_cases, Hself. unfold lift.
      destruct (StringStore__getitem__ (store (vocab (doc t))) (orth t)) as [e' | s'];
        [| discriminate].
      split; congruence.
    + split; congruence.
Qed.

(** The length of [text_with_ws] is the length of the token, plus one when
    a space follows the token. *)
Theorem text_with_ws_length self t n w :
  tokens w !! self = Some t →
  Token__len__ self w = (inr n, w) →
  ∃ s,
    text_with_ws self w = (inr s, w)
    ∧ Z.of_nat (String.length s) = n + (if space_after t then 1 else 0).
Proof.
  intros Hself Hlen.
  unfold Token__len__ in Hlen. rewrite bind_unfold, text_by_cases, Hself in Hlen.
  destruct (StringStore__getitem__ (store (vocab (doc t))) (orth t)) as [e | s0] eqn:Hs0;
    [discriminate |].
  injection Hlen as <-.
  assert (text self w = (inr s0, w)) as Htext
    by (rewrite text_by_cases, Hself, Hs0; reflexivity).
  unfold text_with_ws. rewrite (bind_returns _ _ _ _ _ (load_live _ _ _ Hself)).
  destruct (space_after t).
  - exists (s0 +:+ " "). rewrite (bind_returns _ _ _ _ _ Htext).
    split; [reflexivity |]. rewrite length_append. simpl. lia.
  - exists s0. split; [exact Htext |]. lia.
Qed.

(** What the accessors return is decided by the token behind [self]. *)
Lemma accessors_agree self w w' :
  tokens w !! self = tokens w' !! self →
  (text self w).1 = (text self w').1
  ∧ (Token__len__ self w).1 = (Token__len__ self w').1
  ∧ (Token__repr__ self w).1 = (Token__repr__ self w').1
  ∧ (text_with_ws self w).1 = (text_with_ws self w').1
  ∧ (vector self w).1 = (vector self w').1.
Proof.
  intros Hsame.
  destruct (tokens w !! self) as [t |] eqn:Hw; symmetry in Hsame;
    unfold Token__len__, Token__repr__, text_with_ws, vector;
    repeat first
      [ rewrite bind_unfold | rewrite text_by_cases | rewrite Hw | rewrite Hsame
      | progress unfold load, lift ];
    [| repeat split].
  destruct (space_after t);
    repeat first
      [ rewrite bind_unfold | rewrite text_by_cases | rewrite Hw | rewrite Hsame
      | progress unfold load, lift ];
    destruct (StringStore__getitem__ (store (vocab (doc t))) (orth t)) as [e | s];
    repeat split.
Qed.

(** Whatever calls are made, on this token or on another one, [text],
    [__len__], [__repr__], [text_with_ws] and [vector] go on returning (or
    raising) what they did before. *)
Theorem accessors_stable self other (cs : list call) w :
  (text self (run other cs w)).1 = (text self w).1
  ∧ (Token__len__ self (run other cs w)).1 = (Token__len__ self w).1
  ∧ (Token__repr__ self (run other cs w)).1 = (Token__repr__ self w).1
  ∧ (text_with_ws self (run other cs w)).1 = (text_with_ws self w).1
  ∧ (vector self (run other cs w)).1 = (vector self w).1.
Proof.
  apply accessors_agree. rewrite run_keeps_tokens. reflexivity.
Qed.

(** ** The stages of [get_encrypted_vector] *)

Lemma get_encrypted_vector_via_vector
    self (workers : list BaseWorker) crypto_provider requires_grad w :
  (2 ≤ length workers)%nat →
  get_encrypted_vector self workers crypto_provider requires_grad w =
  (vector self ≫= λ v, encode_and_share v workers crypto_provider requires_grad) w.
Proof.
  intros Hlen.
  rewrite get_encrypted_vector_enough_parties by exact Hlen.
  unfold vector. rewrite !bind_unfold.
  destruct (load self w) as [[e | t] w1]; [reflexivity |].
  rewrite !bind_unfold.
  destruct (text self w1) as [[e | s] w2]; [reflexivity |].
  rewrite !bind_unfold. unfold lift.
  destruct (Vectors__getitem__ (vectors (vocab (doc t))) s); reflexivity.
Qed.

Lemma get_encrypted_vector_after_vector
    self (workers : list BaseWorker) crypto_provider requires_grad a w :
  (2 ≤ length workers)%nat →
  vector self w = (inr a, w) →
  get_encrypted_vector self workers crypto_provider requires_grad w =
  encode_and_share a workers crypto_provider requires_grad w.
Proof.
  intros Hlen Hvec.
  rewrite get_encrypted_vector_via_vector by exact Hlen.
  rewrite bind_unfold, Hvec. reflexivity.
Qed.

(** With two workers or more and a vector [a] for the token, the result of
    [get_encrypted_vector] is the result of [share], called with the
    workers, [crypto_provider] and [requires_grad] as given, on
    [torch.Tensor(a).fix_precision()];  tokens and attributes are as
    before and the runtime is as [share] left it. *)
Theorem get_encrypted_vector_pipeline
    self (workers : list BaseWorker) crypto_provider requires_grad a w
    x1 h1 x2 h2 r h3 :
  (2 ≤ length workers)%nat →
  vector self w = (inr a, w) →
  torch_Tensor a (ext w) = (inr x1, h1) →
  fix_precision x1 h1 = (inr x2, h2) →
  share x2 workers crypto_provider requires_grad h2 = (r, h3) →
  get_encrypted_vector self workers crypto_provider requires_grad w =
  (r, {| tokens := tokens w; underscores := underscores w; ext := h3 |}).
Proof.
  intros Hlen Hvec Htensor Hfix Hshare.
  rewrite (get_encrypted_vector_after_vector _ _ _ _ _ _ Hlen Hvec).
  unfold encode_and_share. rewrite bind_unfold. unfold foreign at 1.
  rewrite Htensor. rewrite bind_unfold. unfold foreign at 1.
  cbn [ext tokens underscores]. rewrite Hfix.
  rewrite bind_unfold. unfold foreign.
  cbn [ext tokens underscores]. rewrite Hshare.
  destruct r; reflexivity.
Qed.

(** When [torch.Tensor] or [fix_precision] raises, [get_encrypted_vector]
    raises the same exception and the runtime is as the failing call left
    it: the later stages, [share] among them, are not run. *)
Theorem get_encrypted_vector_stops_at_failure
    self (workers : list BaseWorker) crypto_provider requires_grad a w e h :
  (2 ≤ length workers)%nat →
  vector self w = (inr a, w) →
  torch_Tensor a (ext w) = (inl e, h)
  ∨ (∃ x1 h1, torch_Tensor a (ext w) = (inr x1, h1)
              ∧ fix_precision x1 h1 = (inl e, h)) →
  get_encrypted_vector self workers crypto_provider requires_grad w =
  (inl e, {| tokens := tokens w; underscores := underscores w; ext := h |}).
Proof.
  intros Hlen Hvec Hfail.
  rewrite (get_encrypted_vector_after_vector _ _ _ _ _ _ Hlen Hvec).
  unfold encode_and_share. rewrite bind_unfold. unfold foreign at 1.
  destruct Hfail as [Htensor | (x1 & h1 & Htensor & Hfix)]; rewrite Htensor.
  - reflexivity.
  - rewrite bind_unfold. unfold foreign at 1.
    cbn [ext tokens underscores]. rewrite Hfix. reflexivity.
Qed.

End Properties.

(** * The properties at work on the test double *)

Import Double.

Lemma two_tokens_alice : tokens two_tokens !! 1%positive = Some alice_token.
Proof. reflexivity. Qed.

Lemma two_tokens_space : tokens two_tokens !! 2%positive = Some space_token.
Proof. reflexivity. Qed.

(** One participant: the call is refused and the network log stays empty. *)
Lemma get_encrypted_vector_rejects_single_party_witness :
  (length ["alice"] < 2)%nat
  ∧ get_encrypted_vector 1%positive ["alice"] (Some "carol") true two_tokens =
    (inl (AssertionError
            "You need at least two workers in order to encrypt the vector with SMPC"),
     two_tokens)
  ∧ network (ext two_tokens) = [].
Proof.
  assert (length ["alice"] < 2)%nat as Hlen by (simpl; lia).
  split; [exact Hlen |]. split; [| reflexivity].
  exact (get_encrypted_vector_rejects_single_party
           1%positive ["alice"] (Some "carol") true two_tokens Hlen).
Defined.

(** Two participants: the vector of "Alice" is encoded and a share goes to
    each of them. *)
Lemma get_encrypted_vector_shares_vector_witness :
  (2 ≤ length ["alice"; "bob"])%nat
  ∧ vector 1%positive two_tokens = (inr [1; 2; 3; 4], two_tokens)
  ∧ get_encrypted_vector 1%positive ["alice"; "bob"] (Some "carol") true two_tokens =
    encode_and_share [1; 2; 3; 4] ["alice"; "bob"] (Some "carol") true two_tokens
  ∧ network (ext (get_encrypted_vector 1%positive ["alice"; "bob"] (Some "carol") true
                    two_tokens).2) =
    [("alice", [1000; 2000; 3000; 4000]); ("bob", [1000; 2000; 3000; 4000])].
Proof.
  assert (2 ≤ length ["alice"; "bob"])%nat as Hlen by (simpl; lia).
  assert (vector 1%positive two_tokens = (inr [1; 2; 3; 4], two_tokens)) as Hvec
    by reflexivity.
  split; [exact Hlen |]. split; [exact Hvec |]. split; [| reflexivity].
  exact (proj2 (proj2 (get_encrypted_vector_shares_vector
           1%positive ["alice"; "bob"] (Some "carol") true two_tokens Hlen))
           [1; 2; 3; 4] two_tokens Hvec).
Defined.

(** A pointer to "Alice" with neither [id_at_location] nor [owner]. *)
Lemma create_pointer_defaults_witness :
  tokens two_tokens !! 1%positive = Some alice_token
  ∧ ∃ p,
      create_pointer 1%positive (Some "bob") None true None (Some (IdStr "ptr")) true
        two_tokens = (inr p, two_tokens)
      ∧ TokenPointer_id_at_location p = IdInt 100
      ∧ TokenPointer_owner p = "me".
Proof.
  split; [reflexivity |].
  destruct (create_pointer_defaults 1%positive alice_token (Some "bob") None true None
              (Some (IdStr "ptr")) true two_tokens eq_refl)
    as (p & Hp & Hid & Howner & _).
  exists p. split; [exact Hp |]. split; [exact Hid | exact Howner].
Defined.

(** "Alice" ends at position 4, so its [stop_pos] is 5. *)
Lemma Token__init___positions_witness :
  Token__init__ alice_doc alice_meta None None empty_world = (inr 1%positive, one_token)
  ∧ ∃ t, tokens one_token !! 1%positive = Some t ∧ start_pos t = 0 ∧ stop_pos t = Some 5.
Proof.
  assert (Token__init__ alice_doc alice_meta None None empty_world =
          (inr 1%positive, one_token)) as Hnew by reflexivity.
  split; [exact Hnew |].
  destruct (Token__init___positions _ _ _ _ _ _ _ Hnew) as (t & Ht & Hstart & Hstop & _).
  exists t. split; [exact Ht |]. split; [exact Hstart |].
  exact (Hstop 4 eq_refl).
Defined.

(** The space has no vector: its accessor raises. *)
Lemma vector_follows_has_vector_witness :
  Token__init__ alice_doc space_meta None None one_token = (inr 2%positive, two_tokens)
  ∧ has_vector space_token = false
  ∧ vector 2%positive two_tokens = (inl VectorNotFoundError, two_tokens).
Proof.
  assert (Token__init__ alice_doc space_meta None None one_token =
          (inr 2%positive, two_tokens)) as Hnew by reflexivity.
  split; [exact Hnew |]. split; [reflexivity |].
  destruct (vector_follows_has_vector _ _ _ _ _ _ _ Hnew) as (t & s & Ht & _ & Hall).
  assert (t = space_token) as -> by (rewrite two_tokens_space in Ht; congruence).
  exact (proj1 (Hall two_tokens two_tokens_space) eq_refl).
Defined.

(** C2 as stated fails on a stale flag.  "Alice" is built while the
    VectorTable is empty, so [has_vector] is false;  the vector is then
    loaded into the table;  the flag is still false and the accessor
    returns the vector.  So it is not true of every token with a false
    flag that the accessor raises. *)
Lemma vector_ignores_stale_flag :
  Token__init__ Cases.bare_doc alice_meta None None empty_world =
    (inr 1%positive, Cases.bare_world)
  ∧ (∃ t, tokens Cases.bare_world !! 1%positive = Some t
          ∧ has_vector t = false
          ∧ tokens Cases.stale_world !! 1%positive
            = Some (Cases.document_becomes alice_doc t))
  ∧ (∃ t, tokens Cases.stale_world !! 1%positive = Some t ∧ has_vector t = false)
  ∧ vector 1%positive Cases.stale_world = (inr [1; 2; 3; 4], Cases.stale_world)
  ∧ ¬ (∀ (w : World) (self : loc) (t : Token),
         tokens w !! self = Some t →
         has_vector t = false →
         vector self w = (inl VectorNotFoundError, w)).
Proof.
  split; [reflexivity |].
  split; [eexists; repeat split; reflexivity |].
  split; [eexists; split; reflexivity |].
  split; [reflexivity |].
  intros Hclaim.
  specialize (Hclaim Cases.stale_world 1%positive _ eq_refl eq_refl).
  discriminate Hclaim.
Qed.

(** "Alice" is followed by a space, the space token is not. *)
Lemma text_with_ws_space_after_witness :
  tokens two_tokens !! 1%positive = Some alice_token
  ∧ text_with_ws 1%positive two_tokens = (inr "Alice ", two_tokens).
Proof.
  split; [reflexivity |].
  exact (proj1 (proj1 (text_with_ws_space_after 1%positive alice_token two_tokens eq_refl)
                  "Alice" eq_refl) eq_refl).
Defined.

(** "Alice" spans the first five characters of "Alice went". *)
Lemma span_is_length_witness :
  span "Alice went" (start_pos alice_token) (stop_pos alice_token) = Some "Alice"
  ∧ ∃ stop,
      stop_pos alice_token = Some stop
      ∧ stop - start_pos alice_token = 5
      ∧ Token__len__ 1%positive two_tokens = (inr (stop - start_pos alice_token), two_tokens).
Proof.
  split; [reflexivity |].
  exact (span_is_length 1%positive alice_token "Alice went" "Alice" two_tokens
           eq_refl eq_refl eq_refl).
Defined.

(** Two writes to an attribute that was never declared. *)
Lemma set_attribute_last_write_wins_witness :
  getattr 1%positive "pos" two_tokens = None
  ∧ ∃ w1 w2,
      set_attribute 1%positive "pos" (PyStr "NOUN") two_tokens = (inr (), w1)
      ∧ set_attribute 1%positive "pos" (PyStr "PROPN") w1 = (inr (), w2)
      ∧ getattr 1%positive "pos" w2 = Some (PyStr "PROPN").
Proof.
  split; [reflexivity |].
  destruct (set_attribute_last_write_wins 1%positive alice_token "pos"
              (PyStr "NOUN") (PyStr "PROPN") two_tokens eq_refl)
    as (w1 & w2 & H1 & H2 & _ & Hget).
  exists w1, w2. split; [exact H1 |]. split; [exact H2 | exact Hget].
Defined.

(** A mixed sequence of calls on "Alice": both tokens are as before. *)
Lemma only_set_attribute_mutates_witness :
  tokens (run 1%positive
            [Call_set_attribute "pos" (PyStr "NOUN");
             Call_get_encrypted_vector ["alice"; "bob"] None true;
             Call_create_pointer None None true None None true;
             Call_text_]
            two_tokens) = tokens two_tokens.
Proof.
  exact (proj1 (only_set_attribute_mutates 1%positive
           [Call_set_attribute "pos" (PyStr "NOUN");
            Call_get_encrypted_vector ["alice"; "bob"] None true;
            Call_create_pointer None None true None None true;
            Call_text_]
           two_tokens)).
Defined.

(** * The further properties at work *)

Import Cases.

(** A key that the StringStore does not know: the constructor raises, the
    identifier it drew is spent, and no token is added. *)
Lemma Token__init___raises_witness :
  Token__init__ alice_doc unknown_meta None None one_token =
  (inl NotFoundError,
   {| tokens := tokens one_token; underscores := underscores one_token;
      ext := {| next_id := 102; network := [] |} |}).
Proof.
  apply Token__init___raises. right.
  exists (IdInt 101), "me". split; reflexivity.
Defined.

Lemma Token__init___fields_witness :
  Token__init__ alice_doc alice_meta None None empty_world = (inr 1%positive, one_token)
  ∧ ∃ t, tokens one_token !! 1%positive = Some t
         ∧ id t = IdInt 100 ∧ orth t = 7 ∧ underscore t = 1%positive
         ∧ has_vector t = true.
Proof.
  assert (Token__init__ alice_doc alice_meta None None empty_world =
          (inr 1%positive, one_token)) as Hnew by reflexivity.
  split; [exact Hnew |].
  destruct (Token__init___fields _ _ _ _ _ _ _ Hnew)
    as (t & s & Ht & Hinit & _ & Horth & _ & _ & Hobj & Htext & Hhas).
  exists t. split; [exact Ht |].
  assert (AbstractObject__init__ None None (ext empty_world) =
          (inr (IdInt 100, "me"), ext one_token)) as Hdrawn by reflexivity.
  split; [congruence |].
  split; [exact Horth |]. split; [exact Hobj |].
  apply Hhas.
  assert (s = "Alice") as -> by (injection Htext as Hs; symmetry; exact Hs).
  eexists. reflexivity.
Defined.

Lemma Token__init___fresh_witness :
  Token__init__ alice_doc space_meta None None one_token = (inr 2%positive, two_tokens)
  ∧ tokens one_token !! 2%positive = None
  ∧ tokens two_tokens !! 1%positive = tokens one_token !! 1%positive.
Proof.
  assert (Token__init__ alice_doc space_meta None None one_token =
          (inr 2%positive, two_tokens)) as Hnew by reflexivity.
  split; [exact Hnew |].
  destruct (Token__init___fresh _ _ _ _ _ _ _ Hnew) as (Hfresh & Hkept & _).
  split; [exact Hfresh |]. apply Hkept. discriminate.
Defined.

(** Two [Token] objects for "Alice": the tag set on the first is read on
    the second. *)
Lemma set_attribute_shared_with_meta_witness :
  Token__init__ alice_doc alice_meta None None empty_world = (inr 1%positive, one_token)
  ∧ Token__init__ alice_doc alice_meta None None one_token = (inr 2%positive, alice_twice)
  ∧ ∃ w3 tb,
      set_attribute 1%positive "pos" (PyStr "PROPN") alice_twice = (inr (), w3)
      ∧ tokens w3 !! 2%positive = Some tb
      ∧ getattr (underscore tb) "pos" w3 = Some (PyStr "PROPN").
Proof.
  assert (Token__init__ alice_doc alice_meta None None empty_world =
          (inr 1%positive, one_token)) as H1 by reflexivity.
  assert (Token__init__ alice_doc alice_meta None None one_token =
          (inr 2%positive, alice_twice)) as H2 by reflexivity.
  split; [exact H1 |]. split; [exact H2 |].
  destruct (set_attribute_shared_with_meta _ _ _ _ _ _ _ _ _ _ _ _
              "pos" (PyStr "PROPN") H1 H2)
    as (w3 & tb & Hset & _ & Htb & Hget & _).
  exists w3, tb. split; [exact Hset |]. split; [exact Htb | exact Hget].
Defined.

Lemma set_attribute_other_names_witness :
  getattr 1%positive "pos"
    (set_attribute 1%positive "lemma" (PyStr "alice")
       (set_attribute 1%positive "pos" (PyStr "PROPN") two_tokens).2).2
  = Some (PyStr "PROPN").
Proof.
  assert (tokens (set_attribute 1%positive "pos" (PyStr "PROPN") two_tokens).2
            !! 1%positive = Some alice_token) as Hself by reflexivity.
  assert ("lemma" ≠ "pos") as Hne by discriminate.
  exact (eq_trans
           (set_attribute_other_names 1%positive alice_token "lemma" "pos"
              (PyStr "alice") _ Hself Hne)
           eq_refl).
Defined.

Lemma set_attribute_overwrites_witness :
  (set_attribute 1%positive "pos" (PyStr "NOUN") ;;
   set_attribute 1%positive "pos" (PyStr "PROPN")) two_tokens =
  set_attribute 1%positive "pos" (PyStr "PROPN") two_tokens.
Proof.
  exact (set_attribute_overwrites 1%positive alice_token "pos"
           (PyStr "NOUN") (PyStr "PROPN") two_tokens eq_refl).
Defined.

Lemma set_attribute_commutes_witness :
  "pos" ≠ "lemma"
  ∧ (set_attribute 1%positive "pos" (PyStr "PROPN") ;;
     set_attribute 1%positive "lemma" (PyStr "alice")) two_tokens =
    (set_attribute 1%positive "lemma" (PyStr "alice") ;;
     set_attribute 1%positive "pos" (PyStr "PROPN")) two_tokens.
Proof.
  assert ("pos" ≠ "lemma") as Hne by discriminate.
  split; [exact Hne |].
  exact (set_attribute_commutes 1%positive alice_token "pos" (PyStr "PROPN")
           "lemma" (PyStr "alice") two_tokens eq_refl Hne).
Defined.

(** "Alice" has five characters and "Alice " has six. *)
Lemma text_with_ws_length_witness :
  Token__len__ 1%positive two_tokens = (inr 5, two_tokens)
  ∧ ∃ s, text_with_ws 1%positive two_tokens = (inr s, two_tokens)
         ∧ Z.of_nat (String.length s) = 6.
Proof.
  split; [reflexivity |].
  exact (text_with_ws_length 1%positive alice_token 5 two_tokens eq_refl eq_refl).
Defined.

(** The second [Token] object for "Alice": its length and its [repr]. *)
Lemma accessors_follow_text_witness :
  text 2%positive alice_twice = (inr "Alice", alice_twice)
  ∧ Token__len__ 2%positive alice_twice = (inr 5, alice_twice)
  ∧ Token__repr__ 2%positive alice_twice = (inr "Token[Alice]", alice_twice).
Proof.
  assert (text 2%positive alice_twice = (inr "Alice", alice_twice)) as Htext
    by reflexivity.
  split; [exact Htext |].
  destruct (proj1 (proj2 (accessors_follow_text 2%positive alice_twice)) "Alice" Htext)
    as (Hlen & Hrepr & _).
  split; [exact Hlen | exact Hrepr].
Defined.

(** After attribute writes and an encryption, "Alice" still reads the
    same. *)
Lemma accessors_stable_witness :
  (text 1%positive
     (run 2%positive
        [Call_set_attribute "pos" (PyStr "SPACE");
         Call_get_encrypted_vector ["alice"; "bob"] None true]
        two_tokens)).1 = inr "Alice".
Proof.
  exact (eq_trans
           (proj1 (@accessors_stable runtime 1%positive 2%positive
                     [Call_set_attribute "pos" (PyStr "SPACE");
                      Call_get_encrypted_vector ["alice"; "bob"] None true]
                     two_tokens))
           eq_refl).
Defined.

(** The shares of "Alice" for two workers. *)
Lemma get_encrypted_vector_pipeline_witness :
  (2 ≤ length ["alice"; "bob"])%nat
  ∧ get_encrypted_vector 1%positive ["alice"; "bob"] None true two_tokens =
    (inr [1000; 2000; 3000; 4000],
     {| tokens := tokens two_tokens; underscores := underscores two_tokens;
        ext := {| next_id := 102;
                  network := [("alice", [1000; 2000; 3000; 4000]);
                              ("bob", [1000; 2000; 3000; 4000])] |} |}).
Proof.
  assert (2 ≤ length ["alice"; "bob"])%nat as Hlen by (simpl; lia).
  split; [exact Hlen |].
  exact (get_encrypted_vector_pipeline 1%positive ["alice"; "bob"] None true
           [1; 2; 3; 4] two_tokens
           [1; 2; 3; 4] (ext two_tokens)
           [1000; 2000; 3000; 4000] (ext two_tokens)
           (inr [1000; 2000; 3000; 4000]) _
           Hlen eq_refl eq_refl eq_refl eq_refl).
Defined.

(** The encoding overflows: nothing is sent. *)
Lemma get_encrypted_vector_stops_at_failure_witness :
  (2 ≤ length ["alice"; "bob"])%nat
  ∧ @get_encrypted_vector Flaky.runtime 1%positive ["alice"; "bob"] None true
      Flaky.big_world =
    (inl (ForeignError "OverflowError"),
     @Build_World Flaky.runtime (@tokens Flaky.runtime Flaky.big_world)
       (@underscores Flaky.runtime Flaky.big_world)
       {| next_id := 101; network := [] |}).
Proof.
  assert (2 ≤ length ["alice"; "bob"])%nat as Hlen by (simpl; lia).
  split; [exact Hlen |].
  apply (@get_encrypted_vector_stops_at_failure Flaky.runtime 1%positive
           ["alice"; "bob"] None true [1; 5000000] Flaky.big_world
           (ForeignError "OverflowError") {| next_id := 101; network := [] |}
           Hlen eq_refl).
  right. exists [1; 5000000], {| next_id := 101; network := [] |}.
  split; reflexivity.
Defined.
